(** * thefinnternet: the biography component and the blog's content files

    A shallow embedding of the two [Bio] components of the blog
    ([src/components/bio.js], rendering the avatar with gatsby-image, and its
    near-duplicate that renders a plain [img]) and of the front-matter of the
    Markdown posts under [content/blog].

    The render callback handed to [StaticQuery] is JavaScript: it reads
    properties of a dynamically typed query result, and a read from
    [undefined] or [null] throws.  The embedding keeps that: query results
    are [JsValue]s, property reads live in a small state-and-exception monad
    [Render], and the JSX the callback returns is a tree of [Node]s. *)

From Stdlib Require Import String Ascii List Bool Arith ZArith QArith Lia DecimalString.
Import ListNotations.
Set Warnings "-register-all".
Local Open Scope list_scope.
Local Open Scope string_scope.

(* ------------------------------------------------------------------ *)
(** ** Strings *)

(** The double-quote character, as a string. *)
Definition dquote : string := String "034"%char EmptyString.

(** What follows [p] in [s], when [s] starts with [p]. *)
Definition strip_prefix (p s : string) : option string :=
  if String.prefix p s
  then Some (String.substring (String.length p) (String.length s - String.length p) s)
  else None.

(* ------------------------------------------------------------------ *)
(** ** JavaScript values *)

Module Js.

(** The values a resolved GraphQL query result is made of: objects, String,
    numeric and Boolean scalars and [null], with [undefined] for what a read
    of an absent key yields.  An object keeps its properties in insertion
    order, which JavaScript makes observable.  The numbers this program
    meets (0, 100, 3, 2.5, 1 / 2, the 50 of the query) are exact in binary
    floating point and are kept as rationals. *)
Inductive JsValue : Type :=
| JUndefined
| JNull
| JBool (b : bool)
| JNum (q : Q)
| JStr (s : string)
| JObj (fields : list (string * JsValue)).

Inductive JsError : Type :=
| TypeError (what : string).

(** How an evaluation ends: with a value, or with a thrown error. *)
Inductive Completion (A : Type) : Type :=
| Normal (a : A)
| Throw (e : JsError).
Arguments Normal {A} a.
Arguments Throw {A} e.

(** What a React render could touch besides its input: component state
    cells, pending timers and live subscriptions. *)
Record World : Type := mkWorld {
  state_cells : list JsValue;
  timers : list nat;
  subscriptions : list string
}.

(** A computation of the render phase: it runs in a world and leaves one. *)
Definition Render (A : Type) : Type := World -> Completion A * World.

Definition ret {A : Type} (a : A) : Render A := fun w => (Normal a, w).

Definition throw {A : Type} (e : JsError) : Render A := fun w => (Throw e, w).

Definition bind {A B : Type} (m : Render A) (f : A -> Render B) : Render B :=
  fun w =>
    match m w with
    | (Normal a, w') => f a w'
    | (Throw e, w') => (Throw e, w')
    end.

Fixpoint assoc {A : Type} (key : string) (l : list (string * A)) : option A :=
  match l with
  | [] => None
  | (k, v) :: rest => if String.eqb k key then Some v else assoc key rest
  end.

Definition has_own {A : Type} (key : string) (l : list (string * A)) : bool :=
  match assoc key l with
  | Some _ => true
  | None => false
  end.

(** [base.key].  Reading from [undefined] or [null] throws a TypeError; an
    object yields its own property or [undefined]; a primitive yields
    [undefined] (none of the keys read by this program is a property of
    [Object.prototype], [String.prototype], [Number.prototype] or
    [Boolean.prototype]). *)
Definition Get (base : JsValue) (key : string) : Render JsValue :=
  match base with
  | JUndefined | JNull => throw (TypeError key)
  | JObj fields =>
      match assoc key fields with
      | Some v => ret v
      | None => ret JUndefined
      end
  | JBool _ | JNum _ | JStr _ => ret JUndefined
  end.

Section ToString.

(** [Number::toString], the host's rendering of a number, is not code of
    this repository: it is a parameter. *)
Variable number_to_string : Q -> string.

(** The abstract operation ToString, which a template literal applies to
    each substitution.  A plain object prints through
    [Object.prototype.toString]; one whose own [toString] property shadows
    it (with data, never a function, in a query result) cannot be
    converted and throws. *)
Definition ToString (v : JsValue) : Render string :=
  match v with
  | JUndefined => ret "undefined"
  | JNull => ret "null"
  | JBool true => ret "true"
  | JBool false => ret "false"
  | JNum q => ret (number_to_string q)
  | JStr s => ret s
  | JObj fields =>
      if has_own "toString" fields
      then throw (TypeError "toString")
      else ret "[object Object]"
  end.

End ToString.

(** A computation that neither reads nor changes the world: it ends the
    same way in every world and hands the world back. *)
Definition pure {A : Type} (m : Render A) : Prop :=
  exists r : Completion A, forall w : World, m w = (r, w).

Definition nullish (v : JsValue) : bool :=
  match v with
  | JUndefined | JNull => true
  | _ => false
  end.

End Js.

Import Js.

Declare Scope render_scope.
Delimit Scope render_scope with render.
Notation "x <- m ;; k" := (bind m (fun x => k))
  (at level 100, m at next level, right associativity) : render_scope.

(* ------------------------------------------------------------------ *)
(** ** React elements and GraphQL selections *)

Module Jsx.

(** What an element is an instance of: a host tag ([div], [img], [a]) or
    an imported component ([Image] of gatsby-image). *)
Inductive ElemType : Type :=
| Host (tag : string)
| Component (name : string).

(** The tree a JSX expression evaluates to.  [Text] is literal JSX text
    (after JSX's whitespace rules), [Expr] a child written [{e}], kept as
    the value [e] had.  Props are kept in source order. *)
Inductive Node : Type :=
| Text (s : string)
| Expr (v : JsValue)
| Elem (type : ElemType) (props : list (string * JsValue)) (children : list Node).

Definition is_host (tag : string) (n : Node) : bool :=
  match n with
  | Elem (Host t) _ _ => String.eqb t tag
  | _ => false
  end.

(** An image element: the host [img], or gatsby-image's [Image]. *)
Definition is_image (n : Node) : bool :=
  match n with
  | Elem (Host t) _ _ => String.eqb t "img"
  | Elem (Component c) _ _ => String.eqb c "Image"
  | _ => false
  end.

Definition prop (name : string) (n : Node) : option JsValue :=
  match n with
  | Elem _ props _ => assoc name props
  | _ => None
  end.

(** The entry [key] of an element's [style] object. *)
Definition style_entry (key : string) (n : Node) : option JsValue :=
  match prop "style" n with
  | Some (JObj entries) => assoc key entries
  | _ => None
  end.

(** The nodes of a tree that satisfy [p], in document order. *)
Fixpoint select (p : Node -> bool) (n : Node) : list Node :=
  ((if p n then [n] else []) ++
   match n with
   | Elem _ _ children => flat_map (select p) children
   | _ => []
   end)%list.

Definition anchors : Node -> list Node := select (is_host "a").
Definition images : Node -> list Node := select is_image.
Definition paragraphs : Node -> list Node := select (is_host "p").

(** The text leaves of a tree: its literal text and its string-valued
    children, in document order. *)
Fixpoint texts (n : Node) : list string :=
  match n with
  | Text s => [s]
  | Expr (JStr s) => [s]
  | Expr _ => []
  | Elem _ _ children => flat_map texts children
  end.

(** The space-separated tokens of an attribute such as [rel]. *)
Fixpoint tokens_from (cur : string) (s : string) : list string :=
  match s with
  | EmptyString => if String.eqb cur "" then [] else [cur]
  | String c rest =>
      if Ascii.eqb c " "%char
      then ((if String.eqb cur "" then [] else [cur]) ++ tokens_from "" rest)%list
      else tokens_from (cur ++ String c EmptyString) rest
  end.

Definition tokens (v : JsValue) : list string :=
  match v with
  | JStr s => tokens_from "" s
  | _ => []
  end.

(** A field of a GraphQL selection set: alias, name, arguments as written,
    and sub-selections (a fragment spread is a field-less leaf). *)
Inductive Selection : Type :=
| Field (alias name : string) (args : list (string * string)) (sub : list Selection)
| Spread (fragment : string).


(** The key under which a field appears in the result. *)
Definition response_key (alias name : string) : string :=
  if String.eqb alias "" then name else alias.

Definition is_object (v : JsValue) : bool :=
  match v with
  | JObj _ => true
  | _ => false
  end.

(** A scalar leaf of a result; GraphQL leaves are nullable. *)
Definition is_scalar (v : JsValue) : bool :=
  match v with
  | JNull | JBool _ | JNum _ | JStr _ => true
  | JUndefined | JObj _ => false
  end.

(** [provides v f]: the object [v] holds what the selection [f] asks for,
    an object for a field with sub-selections (recursively) and a scalar
    for a leaf. *)
Fixpoint provides (v : JsValue) (f : Selection) : bool :=
  match f with
  | Spread _ => true
  | Field alias name _ sub =>
      match v with
      | JObj fields =>
          match assoc (response_key alias name) fields with
          | Some child =>
              match sub with
              | [] => is_scalar child
              | _ :: _ => is_object child && forallb (provides child) sub
              end
          | None => false
          end
      | _ => false
      end
  end.

(** A result honours a query when it provides every top-level field. *)
Definition honours (query : list Selection) (data : JsValue) : bool :=
  forallb (provides data) query.

(** Gatsby's [StaticQuery]: the framework has resolved the query at build
    time and calls the [render] prop with the result. *)
Definition StaticQuery {A : Type} (query : list Selection)
    (render : JsValue -> Render A) (resolve : list Selection -> JsValue)
    : Render A :=
  render (resolve query).

End Jsx.

Import Jsx.

(* ------------------------------------------------------------------ *)
(** ** src/components/bio.js: the avatar through gatsby-image *)

Module GatsbyBio.
Section Bio.

(** [rhythm], exported by [src/utils/typography.js] from typography.js:
    a number of baseline units to a CSS length.  The file is not among
    the sources; the scale is a parameter. *)
Variable rhythm : Q -> string.
Variable number_to_string : Q -> string.

Definition bioQuery : list Selection :=
  [ Field "avatar" "file"
      [("absolutePath", "{ regex: " ++ dquote ++ "/profile-pic.jpg/" ++ dquote ++ " }")]
      [ Field "" "childImageSharp" []
          [ Field "" "fixed" [("width", "50"); ("height", "50")]
              [ Spread "GatsbyImageSharpFixed" ] ] ];
    Field "" "site" []
      [ Field "" "siteMetadata" []
          [ Field "" "author" [] [];
            Field "" "social" []
              [ Field "" "github" [] [];
                Field "" "email" [] [] ] ] ] ].

(** The [render] prop.  The steps follow JavaScript's evaluation order:
    the destructuring of [data.site.siteMetadata], then the props and
    children of the JSX, left to right. *)
Definition render (data : JsValue) : Render Node :=
  (site <- Get data "site" ;;
   siteMetadata <- Get site "siteMetadata" ;;
   author <- Get siteMetadata "author" ;;
   social <- Get siteMetadata "social" ;;
   avatar <- Get data "avatar" ;;
   childImageSharp <- Get avatar "childImageSharp" ;;
   fixed <- Get childImageSharp "fixed" ;;
   github <- Get social "github" ;;
   github_text <- ToString number_to_string github ;;
   email <- Get social "email" ;;
   email_text <- ToString number_to_string email ;;
   ret
     (Elem (Host "div")
        [("style", JObj [("display", JStr "flex");
                         ("marginBottom", JStr (rhythm 2.5))])]
        [ Elem (Component "Image")
            [("fixed", fixed);
             ("alt", author);
             ("style", JObj [("marginRight", JStr (rhythm (1 / 2)));
                             ("marginBottom", JNum 0);
                             ("minWidth", JNum 100);
                             ("minHeight", JNum 100);
                             ("borderRadius", JStr "100%")]);
             ("imgStyle", JObj [("borderRadius", JStr "50%")])]
            [];
          Elem (Host "p") []
            [ Text "Written by ";
              Elem (Host "strong") [] [Expr author];
              Text ", a software consultant from Boston, MA who works with React, React-Native, and Typescript. He can sometimes be found crossing enemy lines to work on the backend with Node, GraphQL, and Postgres.";
              Elem (Host "br") [] [];
              Elem (Host "a")
                [("href", JStr ("https://github.com/" ++ github_text));
                 ("target", JStr "_blank");
                 ("rel", JStr "noopener noreferrer")]
                [Text "Checkout his work on github"];
              Elem (Host "span") [] [Text " & "];
              Elem (Host "a")
                [("href", JStr ("mailto:" ++ email_text))]
                [Text "get in touch"] ] ]))%render.

Definition Bio (resolve : list Selection -> JsValue) : Render Node :=
  StaticQuery bioQuery render resolve.

End Bio.
End GatsbyBio.

(* ------------------------------------------------------------------ *)
(** ** The near-duplicate component: the avatar as a plain [img] *)

Module PlainBio.
Section Bio.

Variable rhythm : Q -> string.
Variable number_to_string : Q -> string.

(** The URL the bundler gives the imported
    [content/assets/profile-pic.jpg]. *)
Variable profilePic : string.

Definition bioQuery : list Selection :=
  [ Field "" "site" []
      [ Field "" "siteMetadata" []
          [ Field "" "author" [] [];
            Field "" "social" []
              [ Field "" "github" [] [];
                Field "" "email" [] [] ] ] ] ].

Definition render (data : JsValue) : Render Node :=
  (site <- Get data "site" ;;
   siteMetadata <- Get site "siteMetadata" ;;
   author <- Get siteMetadata "author" ;;
   social <- Get siteMetadata "social" ;;
   github <- Get social "github" ;;
   github_text <- ToString number_to_string github ;;
   email <- Get social "email" ;;
   email_text <- ToString number_to_string email ;;
   ret
     (Elem (Host "div")
        [("style", JObj [("display", JStr "flex");
                         ("marginBottom", JStr (rhythm 2.5))])]
        [ Elem (Host "img")
            [("src", JStr profilePic);
             ("alt", author);
             ("style", JObj [("marginRight", JStr (rhythm (1 / 2)));
                             ("marginBottom", JNum 0);
                             ("width", JStr (rhythm 3));
                             ("height", JStr (rhythm 3));
                             ("borderRadius", JStr "50%")])]
            [];
          Elem (Host "p") []
            [ Text "Personal blog by ";
              Elem (Host "strong") [] [Expr author];
              Text ".";
              Elem (Host "br") [] [];
              Text "Musings and write-ups about coding stuff.";
              Elem (Host "br") [] [];
              Elem (Host "a")
                [("href", JStr ("https://github.com/" ++ github_text));
                 ("target", JStr "_blank");
                 ("rel", JStr "noopener noreferrer")]
                [Text "Checkout his work on github"];
              Elem (Host "span") [] [Text " & "];
              Elem (Host "a")
                [("href", JStr ("mailto:" ++ email_text))]
                [Text "get in touch"] ] ]))%render.

Definition Bio (resolve : list Selection -> JsValue) : Render Node :=
  StaticQuery bioQuery render resolve.

End Bio.
End PlainBio.

(* ------------------------------------------------------------------ *)
(** ** Resolved query results *)

(** The site metadata of the data model: an author and two social handles,
    all text. *)
Record Social : Type := mkSocial { github : string; email : string }.
Record SiteMetadata : Type := mkSiteMetadata { author : string; social : Social }.

Definition site_of (sm : SiteMetadata) : JsValue :=
  JObj [("siteMetadata",
         JObj [("author", JStr (author sm));
               ("social", JObj [("github", JStr (github (social sm)));
                                ("email", JStr (email (social sm)))])])].

(** The result of the plain component's query for metadata [sm]. *)
Definition resolved_site (sm : SiteMetadata) : JsValue :=
  JObj [("site", site_of sm)].

(** The result of the gatsby-image component's query: the metadata and the
    avatar's fixed rendition, an opaque reference to the component. *)
Definition resolved (sm : SiteMetadata) (fixed : JsValue) : JsValue :=
  JObj [("avatar", JObj [("childImageSharp", JObj [("fixed", fixed)])]);
        ("site", site_of sm)].

(** The result when no file matches the avatar's path: [avatar] is null. *)
Definition resolved_without_avatar (sm : SiteMetadata) : JsValue :=
  JObj [("avatar", JNull); ("site", site_of sm)].


(* ------------------------------------------------------------------ *)
(** ** The two components side by side *)

Inductive BioVariant : Type :=
| Gatsby   (* src/components/bio.js *)
| Plain.   (* the copy with a plain img *)

Definition render_of (rhythm number_to_string : Q -> string) (profilePic : string)
    (v : BioVariant) : JsValue -> Render Node :=
  match v with
  | Gatsby => GatsbyBio.render rhythm number_to_string
  | Plain => PlainBio.render rhythm number_to_string profilePic
  end.

Definition bioQuery_of (v : BioVariant) : list Selection :=
  match v with
  | Gatsby => GatsbyBio.bioQuery
  | Plain => PlainBio.bioQuery
  end.

(** The selection both queries make of the site metadata: the author and
    the two social handles. *)
Definition site_selection : Selection :=
  Field "" "site" []
    [ Field "" "siteMetadata" []
        [ Field "" "author" [] [];
          Field "" "social" []
            [ Field "" "github" [] [];
              Field "" "email" [] [] ] ] ].

(** What each component's own query resolves to. *)
Definition resolved_for (v : BioVariant) (sm : SiteMetadata) (fixed : JsValue) : JsValue :=
  match v with
  | Gatsby => resolved sm fixed
  | Plain => resolved_site sm
  end.

(** An image whose dimensions come from the scale: its style gives both
    [width] and [height] as values of [rhythm]. *)
Definition sized_by (rhythm : Q -> string) (img : Node) : Prop :=
  exists lines_w lines_h : Q,
    style_entry "width" img = Some (JStr (rhythm lines_w)) /\
    style_entry "height" img = Some (JStr (rhythm lines_h)).

(* ------------------------------------------------------------------ *)
(** ** content/blog: the posts and their front-matter *)

Module Content.

(** A post, as far as its front-matter goes: where it lives, and its lines
    up to and including the one that closes the block.  The Markdown body
    that follows is left out. *)
Record ContentFile : Type := mkContentFile {
  path : string;
  front : list string
}.

Definition javascript_basics : ContentFile :=
  {| path := "content/blog/javascript-basics/javascript_basics.md";
     front :=
      ["---";
       "title: JavaScript Basics";
       "date: " ++ dquote ++ "2019-08-19" ++ dquote;
       "description: A brief overview of some important JavaScript concepts.";
       "---"] |}.

Definition react_and_typescript : ContentFile :=
  {| path := "content/blog/react-and-typescript/index.md";
     front :=
      ["---";
       "title: React & Typescript";
       "date: " ++ dquote ++ "2019-04-24" ++ dquote;
       "description: Overview of using Typescript in your React project including setup, oddities, & some best practices.";
       "---"] |}.

Definition react_native_dark_mode : ContentFile :=
  {| path := "content/blog/react-native-dark-mode/index.md";
     front :=
      ["---";
       "title: React-Native Dark Mode";
       "date: " ++ dquote ++ "2019-11-18" ++ dquote;
       "description: Is an app even really an app without dark mode? 🤔";
       "---"] |}.

Definition react_native_internationalization : ContentFile :=
  {| path := "content/blog/react-native-internationalization/index.md";
     front :=
      ["---";
       "title: React-Native Internationalization";
       "date: " ++ dquote ++ "2019-11-19" ++ dquote;
       "description: Is your app ready to go global? 🌎";
       "---"] |}.

Definition react_native_linting_and_testing : ContentFile :=
  {| path := "content/blog/react-native-linting-and-testing/index.md";
     front :=
      ["---";
       "title: React-Native Linting & Testing";
       "date: " ++ dquote ++ "2019-11-13" ++ dquote;
       "description: Most people say testing isn't sexy but wait till you see these snapshot tests 😉.";
       "---"] |}.

Definition react_native_navigation_v5 : ContentFile :=
  {| path := "content/blog/react-native-navigation-v5/index.md";
     front :=
      ["---";
       "title: React-Native Navigation";
       "date: " ++ dquote ++ "2019-11-19" ++ dquote;
       "description: Redoing my original navigation post with the new react-navigation v5.";
       "---"] |}.

Definition react_native_state_management : ContentFile :=
  {| path := "content/blog/react-native-state-management/index.md";
     front :=
      ["---";
       "title: React-Native State Management";
       "date: " ++ dquote ++ "2019-08-31" ++ dquote;
       "description: How to manage state in your React-Native app.";
       "---"] |}.

Definition testing_and_ci_cd : ContentFile :=
  {| path := "content/blog/testing-and-ci-cd/index.md";
     front :=
      ["---";
       "title: Testing & CI/CD in JavaScript Projects";
       "date: " ++ dquote ++ "2019-09-6" ++ dquote;
       "description: JavaScript testing best practices.";
       "---"] |}.

(** A post whose file name is not known. *)
Definition notifications_post : ContentFile :=
  {| path := "unnamed/part_000";
     front :=
      ["---";
       "title: iOS and Android Notifications Using react-native-firebase ";
       "date: " ++ dquote ++ "2019-09-26" ++ dquote;
       "description: How to add push and local notifications to your React-Native app for both iOS and Android using the library react-native-firebase.";
       "---"] |}.

(** The content source collection. *)
Definition content_files : list ContentFile :=
  [ javascript_basics;
    react_and_typescript;
    react_native_dark_mode;
    react_native_internationalization;
    react_native_linting_and_testing;
    react_native_navigation_v5;
    react_native_state_management;
    testing_and_ci_cd;
    notifications_post ].

(** The three values of a front-matter block, each as it is written in the
    file (a YAML scalar, with its quotes if it has any). *)
Record FrontMatter : Type := mkFrontMatter {
  title : string;
  date : string;
  description : string
}.

(** Reads a block of the shape of the content file format: a [---] line,
    the [title], [date] and [description] entries in that order, a [---]
    line. *)
Definition front_matter (lines : list string) : option FrontMatter :=
  match lines with
  | opening :: l1 :: l2 :: l3 :: closing :: _ =>
      if String.eqb opening "---" && String.eqb closing "---"
      then
        match strip_prefix "title: " l1,
              strip_prefix "date: " l2,
              strip_prefix "description: " l3 with
        | Some t, Some d, Some ds => Some (mkFrontMatter t d ds)
        | _, _, _ => None
        end
      else None
  | _ => None
  end.

(** A double-quoted scalar: at least the two quotes, first and last. *)
Definition quoted (s : string) : bool :=
  (2 <=? String.length s)%nat
  && String.prefix dquote s
  && String.eqb (String.substring (String.length s - 1) 1 s) dquote.

(** What stands between the quotes. *)
Definition unquote (s : string) : string :=
  String.substring 1 (String.length s - 2) s.

Definition is_digit (c : ascii) : bool :=
  let n := nat_of_ascii c in (48 <=? n)%nat && (n <=? 57)%nat.

(** The exact form YYYY-MM-DD: four digits, a hyphen, two digits, a hyphen,
    two digits, and nothing else. *)
Definition iso_date (s : string) : bool :=
  match list_ascii_of_string s with
  | [y1; y2; y3; y4; h1; m1; m2; h2; d1; d2] =>
      forallb is_digit [y1; y2; y3; y4; m1; m2; d1; d2]
      && Ascii.eqb h1 "-"%char && Ascii.eqb h2 "-"%char
  | _ => false
  end.

(** The format as the specification words it: title, date and description
    all quoted strings, the date of the form YYYY-MM-DD. *)
Definition spec_format (fm : FrontMatter) : bool :=
  quoted (title fm)
  && (quoted (date fm) && iso_date (unquote (date fm)))
  && quoted (description fm).

(** A plain (unquoted) YAML scalar: it is not empty and does not open with
    a quote. *)
Definition plain (s : string) : bool :=
  negb (String.eqb s "") && negb (String.prefix dquote s).

(** The format the files use: plain title and description, quoted date. *)
Definition file_format (fm : FrontMatter) : bool :=
  plain (title fm) && quoted (date fm) && plain (description fm).

Definition begins_with (format : FrontMatter -> bool) (f : ContentFile) : bool :=
  match front_matter (front f) with
  | Some fm => format fm
  | None => false
  end.

End Content.

(* ------------------------------------------------------------------ *)
(** ** Concrete inputs *)

Module Sample.

Definition jane : SiteMetadata :=
  mkSiteMetadata "Jane Doe" (mkSocial "janedoe" "jane@example.com").

(** A handle with a hyphen, and one with characters that a URL reserves
    or that percent-encoding would rewrite. *)
Definition hyphenated : SiteMetadata :=
  mkSiteMetadata "Jane Doe" (mkSocial "jane-doe" "jane@example.com").

Definition reserved : SiteMetadata :=
  mkSiteMetadata "Jane Doe" (mkSocial "a/b?c#d%20&e=f g" "jane@example.com").

(** A fixed rendition as the query asks for it, 50 by 50. *)
Definition fixed50 : JsValue :=
  JObj [("width", JNum 50); ("height", JNum 50);
        ("src", JStr "/static/profile-pic-50.jpg");
        ("srcSet", JStr "/static/profile-pic-50.jpg 1x")].

Definition profilePic : string := "/static/profile-pic.jpg".

Definition decimal (n : N) : string :=
  DecimalString.NilZero.string_of_uint (N.to_uint n).

(** The decimal digits of the fraction [r / d], at most [fuel] of them. *)
Fixpoint fraction_digits (fuel : nat) (r d : N) : string :=
  match fuel with
  | O => ""
  | S fuel' =>
      if N.eqb r 0 then ""
      else decimal (10 * r / d) ++ fraction_digits fuel' (10 * r mod d)%N d
  end.

(** A rendering of numbers that agrees with JavaScript's on integers and
    on short terminating decimals ([3], [0.5], [4.375]). *)
Definition number_to_string (q : Q) : string :=
  let n := Z.abs_N (Qnum q) in
  let d := Npos (Qden q) in
  let sign := if (Qnum q <? 0)%Z then "-" else "" in
  let whole := decimal (n / d) in
  let frac := fraction_digits 17 (n mod d)%N d in
  sign ++ whole ++ (if String.eqb frac "" then "" else "." ++ frac).

(** A scale of 1.75rem to the baseline unit. *)
Definition rhythm (lines : Q) : string :=
  number_to_string (lines * 1.75) ++ "rem".

(** A world with nothing in it, and one with something of each kind. *)
Definition idle : World := mkWorld [] [] [].
Definition busy : World := mkWorld [JNum 1; JStr "open"] [250%nat] ["resize"].

End Sample.

(* ------------------------------------------------------------------ *)
(** ** What a render reads, without the monad *)

(** The value a read of [key] gives where it does not throw: the own
    property of an object, [undefined] otherwise. *)
Definition field (key : string) (v : JsValue) : JsValue :=
  match v with
  | JObj fields =>
      match assoc key fields with
      | Some x => x
      | None => JUndefined
      end
  | _ => JUndefined
  end.

(** The values a template literal can print: all but an object whose own
    [toString] entry shadows the inherited method. *)
Definition stringifiable (v : JsValue) : bool :=
  match v with
  | JObj fields => negb (has_own "toString" fields)
  | _ => true
  end.

(** What a template literal prints for a value it can print. *)
Definition text_of (number_to_string : Q -> string) (v : JsValue) : string :=
  match v with
  | JUndefined => "undefined"
  | JNull => "null"
  | JBool true => "true"
  | JBool false => "false"
  | JNum q => number_to_string q
  | JStr s => s
  | JObj _ => "[object Object]"
  end.

(** The places of a query result the render callbacks read from. *)
Definition metadata_of (data : JsValue) : JsValue :=
  field "siteMetadata" (field "site" data).

Definition social_of (data : JsValue) : JsValue :=
  field "social" (metadata_of data).

Definition sharp_of (data : JsValue) : JsValue :=
  field "childImageSharp" (field "avatar" data).

(** [const { author, social } = data.site.siteMetadata]: each base is
    something to read from. *)
Definition destructuring_succeeds (data : JsValue) : bool :=
  negb (nullish data)
  && negb (nullish (field "site" data))
  && negb (nullish (metadata_of data)).

(** The destructuring, and the later reads from [social]. *)
Definition site_reads_succeed (data : JsValue) : bool :=
  destructuring_succeeds data
  && negb (nullish (social_of data)).

(** [data.avatar.childImageSharp.fixed]. *)
Definition avatar_reads_succeed (data : JsValue) : bool :=
  negb (nullish (field "avatar" data))
  && negb (nullish (sharp_of data)).

(** Both substitutions of the template literals can be printed. *)
Definition handles_convert (data : JsValue) : bool :=
  stringifiable (field "github" (social_of data))
  && stringifiable (field "email" (social_of data)).

(** Everything a variant's render evaluates that can throw. *)
Definition reads_succeed (v : BioVariant) (data : JsValue) : bool :=
  site_reads_succeed data
  && match v with
     | Gatsby => avatar_reads_succeed data
     | Plain => true
     end
  && handles_convert data.

(** The two hyperlinks of the biography, for what the template literals
    printed. *)
Definition profile_link (handle : string) : Node :=
  Elem (Host "a")
    [("href", JStr ("https://github.com/" ++ handle));
     ("target", JStr "_blank");
     ("rel", JStr "noopener noreferrer")]
    [Text "Checkout his work on github"].

Definition contact_link (address : string) : Node :=
  Elem (Host "a")
    [("href", JStr ("mailto:" ++ address))]
    [Text "get in touch"].

(** Results for the edge cases: a query result whose [social] has no
    [github] entry, and one whose site metadata has no [author]. *)
Definition without_github : JsValue :=
  JObj [("site",
         JObj [("siteMetadata",
                JObj [("author", JStr "Jane Doe");
                      ("social", JObj [("email", JStr "jane@example.com")])])])].


(* ================================================================== *)
(** * Properties *)

(* ------------------------------------------------------------------ *)
(** ** Strings *)

Lemma prefix_append (p s : string) : String.prefix p (p ++ s) = true.
Proof.
  induction p as [|c p IH]; cbn.
  - now destruct s.
  - destruct (ascii_dec c c) as [_|Hne]; [exact IH | now elim Hne].
Qed.

Lemma substring_all (s : string) : String.substring 0 (String.length s) s = s.
Proof.
  induction s as [|c s IH]; cbn; [reflexivity | now rewrite IH].
Qed.

Lemma substring_after (p s : string) :
  String.substring (String.length p) (String.length (p ++ s) - String.length p) (p ++ s) = s.
Proof.
  induction p as [|c p IH]; cbn [String.length String.append String.substring].
  - rewrite Nat.sub_0_r. apply substring_all.
  - exact IH.
Qed.

Lemma strip_prefix_append (p s : string) : strip_prefix p (p ++ s) = Some s.
Proof.
  unfold strip_prefix. now rewrite prefix_append, substring_after.
Qed.

(* ------------------------------------------------------------------ *)
(** ** The render monad *)

Lemma pure_ret {A : Type} (a : A) : pure (ret a).
Proof. now exists (Normal a). Qed.

Lemma pure_throw {A : Type} (e : JsError) : pure (@throw A e).
Proof. now exists (Throw e). Qed.

Lemma pure_bind {A B : Type} (m : Render A) (f : A -> Render B) :
  pure m -> (forall a, pure (f a)) -> pure (bind m f).
Proof.
  intros [r Hm] Hf. destruct r as [a|e].
  - destruct (Hf a) as [r' Hfa]. exists r'. intros w.
    unfold bind. now rewrite Hm, Hfa.
  - exists (Throw e). intros w. unfold bind. now rewrite Hm.
Qed.

Lemma pure_Get (base : JsValue) (key : string) : pure (Get base key).
Proof.
  destruct base; cbn; try apply pure_throw; try apply pure_ret.
  destruct (assoc key fields); apply pure_ret.
Qed.

Lemma pure_ToString (nts : Q -> string) (v : JsValue) : pure (ToString nts v).
Proof.
  destruct v as [| |[|]| | |fields]; cbn; try apply pure_ret.
  destruct (has_own "toString" fields); [apply pure_throw | apply pure_ret].
Qed.

Create HintDb purity.
#[local] Hint Resolve pure_ret pure_throw pure_Get pure_ToString : purity.

(** Each step of a render is a bind of a pure read. *)
Ltac pure_steps :=
  repeat (apply pure_bind; [auto with purity | intro]); auto with purity.

Lemma Get_own (fields : list (string * JsValue)) (key : string) (v : JsValue) :
  assoc key fields = Some v -> Get (JObj fields) key = ret v.
Proof. intros H. cbn. now rewrite H. Qed.

Lemma ToString_scalar (nts : Q -> string) (v : JsValue) :
  is_scalar v = true -> exists s, ToString nts v = ret s.
Proof.
  destruct v as [| |[|]| | |fields]; cbn; intros H; try discriminate; eauto.
Qed.

Lemma bind_Normal {A B : Type} (m : Render A) (f : A -> Render B)
    (w w' : World) (b : B) :
  bind m f w = (Normal b, w') ->
  exists (a : A) (w1 : World), m w = (Normal a, w1) /\ f a w1 = (Normal b, w').
Proof.
  unfold bind. destruct (m w) as [[a|e] w1]; intros H; [eauto | discriminate].
Qed.

(* ------------------------------------------------------------------ *)
(** ** Query results *)

Lemma provides_object (v : JsValue) (alias name : string)
    (args : list (string * string)) (s : Selection) (sub : list Selection) :
  provides v (Field alias name args (s :: sub)) = true ->
  exists fields child,
    v = JObj fields /\
    assoc (response_key alias name) fields = Some (JObj child) /\
    forallb (provides (JObj child)) (s :: sub) = true.
Proof.
  destruct v as [| | | | |fields]; cbn [provides]; try discriminate.
  destruct (assoc (response_key alias name) fields) as [child|] eqn:Hkey; [|discriminate].
  destruct child as [| | | | |child]; cbn [is_object andb]; try discriminate.
  intros H. exists fields, child. repeat split; [exact Hkey | exact H].
Qed.

Lemma provides_leaf (v : JsValue) (alias name : string)
    (args : list (string * string)) :
  provides v (Field alias name args []) = true ->
  exists fields child,
    v = JObj fields /\
    assoc (response_key alias name) fields = Some child /\
    is_scalar child = true.
Proof.
  destruct v as [| | | | |fields]; cbn [provides]; try discriminate.
  destruct (assoc (response_key alias name) fields) as [child|] eqn:Hkey; [|discriminate].
  intros H. exists fields, child. repeat split; [exact Hkey | exact H].
Qed.

Lemma queries_share_site_selection :
  GatsbyBio.bioQuery = [hd site_selection GatsbyBio.bioQuery; site_selection] /\
  PlainBio.bioQuery = [site_selection].
Proof. split; reflexivity. Qed.

(** What a result that provides the site selection looks like. *)
Lemma provides_site_selection (data : JsValue) :
  provides data site_selection = true ->
  exists fields site meta author social github email,
    data = JObj fields /\
    assoc "site" fields = Some (JObj site) /\
    assoc "siteMetadata" site = Some (JObj meta) /\
    assoc "author" meta = Some author /\
    assoc "social" meta = Some (JObj social) /\
    (assoc "github" social = Some github /\ is_scalar github = true) /\
    (assoc "email" social = Some email /\ is_scalar email = true).
Proof.
  intros H.
  apply provides_object in H as (fields & site & -> & Hsite & H).
  cbn [forallb] in H. rewrite andb_true_r in H.
  apply provides_object in H as (site' & meta & Heq & Hmeta & H).
  injection Heq as <-.
  cbn [forallb] in H. rewrite andb_true_r in H.
  apply andb_prop in H as [Hauthor H].
  apply provides_leaf in Hauthor as (meta' & author & Heq & Hauthor & _).
  injection Heq as <-.
  apply provides_object in H as (meta' & social & Heq & Hsocial & H).
  injection Heq as <-.
  cbn [forallb] in H. rewrite andb_true_r in H.
  apply andb_prop in H as [Hgithub Hemail].
  apply provides_leaf in Hgithub as (social' & github & Heq & Hgithub & Sgithub).
  injection Heq as <-.
  apply provides_leaf in Hemail as (social' & email & Heq & Hemail & Semail).
  injection Heq as <-.
  exists fields, site, meta, author, social, github, email.
  cbn [response_key String.eqb] in *. repeat split; assumption.
Qed.

(** What a result that provides the avatar selection looks like. *)
Lemma provides_avatar_selection (data : JsValue) (ignored : Selection) :
  provides data (hd ignored GatsbyBio.bioQuery) = true ->
  exists fields avatar sharp fixed,
    data = JObj fields /\
    assoc "avatar" fields = Some (JObj avatar) /\
    assoc "childImageSharp" avatar = Some (JObj sharp) /\
    assoc "fixed" sharp = Some fixed.
Proof.
  cbn [hd GatsbyBio.bioQuery]. intros H.
  apply provides_object in H as (fields & avatar & -> & Havatar & H).
  cbn [forallb] in H. rewrite andb_true_r in H.
  apply provides_object in H as (avatar' & sharp & Heq & Hsharp & H).
  injection Heq as <-.
  cbn [forallb] in H. rewrite andb_true_r in H.
  apply provides_object in H as (sharp' & fixed & Heq & Hfixed & _).
  injection Heq as <-.
  exists fields, avatar, sharp, (JObj fixed).
  cbn [response_key String.eqb] in *. repeat split; assumption.
Qed.

(* ------------------------------------------------------------------ *)
(** ** The biography component *)

(** One read of an own property that is known to be there. *)
Ltac read_own :=
  cbn -[ToString];
  match goal with
  | H : assoc ?k ?f = Some _ |- context [assoc ?k ?f] => rewrite H
  end.

(** One conversion of a scalar to a string, [H] saying what it gives. *)
Ltac convert H := cbn -[ToString]; rewrite H.

(** Peels the binds off a render that completed normally. *)
Ltac unwind H :=
  repeat (apply bind_Normal in H as (? & ? & _ & H));
  injection H as <- _.

Section BioProperties.

Variable rhythm : Q -> string.
Variable number_to_string : Q -> string.
Variable profilePic : string.

Local Abbreviation Bio_render := (render_of rhythm number_to_string profilePic).

Lemma GatsbyBio_render_pure (data : JsValue) :
  pure (GatsbyBio.render rhythm number_to_string data).
Proof. unfold GatsbyBio.render. pure_steps. Qed.

Lemma PlainBio_render_pure (data : JsValue) :
  pure (PlainBio.render rhythm number_to_string profilePic data).
Proof. unfold PlainBio.render. pure_steps. Qed.

(** The component is its render callback on what the framework resolved. *)
Lemma Bio_renders_resolved_data (resolve : list Selection -> JsValue) :
  GatsbyBio.Bio rhythm number_to_string resolve
    = GatsbyBio.render rhythm number_to_string (resolve GatsbyBio.bioQuery) /\
  PlainBio.Bio rhythm number_to_string profilePic resolve
    = PlainBio.render rhythm number_to_string profilePic (resolve PlainBio.bioQuery).
Proof. split; reflexivity. Qed.

Lemma render_of_pure (v : BioVariant) (data : JsValue) : pure (Bio_render v data).
Proof. destruct v; [apply GatsbyBio_render_pure | apply PlainBio_render_pure]. Qed.

(** The render of either component on what its query resolves to for
    metadata [sm]: it returns, hands the world back, and its hyperlinks
    are the profile link and the contact link, in that order. *)
Lemma render_links (v : BioVariant) (sm : SiteMetadata) (fixed : JsValue) (w : World) :
  exists tree : Node,
    Bio_render v (resolved_for v sm fixed) w = (Normal tree, w) /\
    anchors tree =
      [ Elem (Host "a")
          [("href", JStr ("https://github.com/" ++ github (social sm)));
           ("target", JStr "_blank");
           ("rel", JStr "noopener noreferrer")]
          [Text "Checkout his work on github"];
        Elem (Host "a")
          [("href", JStr ("mailto:" ++ email (social sm)))]
          [Text "get in touch"] ].
Proof.
  destruct v; eexists; split; reflexivity.
Qed.

(** C1. For every resolved site metadata whose [social.github] is not
    empty, the profile hyperlink rendered by the Bio component (either
    variant) has the href ["https://github.com/"] followed by
    [social.github] and nothing else, has target [_blank] (a new browsing
    context), and has a [rel] whose tokens are [noopener] and
    [noreferrer]. *)
Theorem profile_link_target (v : BioVariant) (sm : SiteMetadata)
    (fixed : JsValue) (w : World) :
  github (social sm) <> "" ->
  exists tree profile contact : Node,
    Bio_render v (resolved_for v sm fixed) w = (Normal tree, w) /\
    anchors tree = [profile; contact] /\
    prop "href" profile = Some (JStr ("https://github.com/" ++ github (social sm))) /\
    prop "target" profile = Some (JStr "_blank") /\
    option_map tokens (prop "rel" profile) = Some ["noopener"; "noreferrer"].
Proof.
  intros _. destruct (render_links v sm fixed w) as [tree [Hrun Hlinks]].
  exists tree. do 2 eexists.
  split; [exact Hrun | split; [exact Hlinks | repeat split]].
Qed.

(** C2. For every resolved site metadata whose [social.email] is not
    empty, the contact hyperlink rendered by the Bio component (either
    variant) has the href ["mailto:"] followed by [social.email] and
    nothing else. *)
Theorem contact_link_target (v : BioVariant) (sm : SiteMetadata)
    (fixed : JsValue) (w : World) :
  email (social sm) <> "" ->
  exists tree profile contact : Node,
    Bio_render v (resolved_for v sm fixed) w = (Normal tree, w) /\
    anchors tree = [profile; contact] /\
    prop "href" contact = Some (JStr ("mailto:" ++ email (social sm))).
Proof.
  intros _. destruct (render_links v sm fixed w) as [tree [Hrun Hlinks]].
  exists tree. do 2 eexists.
  split; [exact Hrun | split; [exact Hlinks | reflexivity]].
Qed.

(** C3. The render of the Bio component (either variant) is a pure
    function of the query data: for every data object, resolved or not,
    the result does not depend on the world the render runs in, the
    render leaves the world (state cells, timers, subscriptions) as it
    found it, and a second render after the first gives the same
    result. *)
Theorem render_is_pure (v : BioVariant) (data : JsValue) (w : World) :
  snd (Bio_render v data w) = w /\
  (forall w' : World, fst (Bio_render v data w') = fst (Bio_render v data w)) /\
  (let (first, w1) := Bio_render v data w in
   let (second, w2) := Bio_render v data w1 in
   second = first /\ w2 = w).
Proof.
  destruct (render_of_pure v data) as [r Hr].
  rewrite (Hr w). cbn [fst snd]. split; [reflexivity | split].
  - intros w'. now rewrite (Hr w').
  - rewrite (Hr w). now split.
Qed.

(** C4. On the resolved input with author "Jane Doe", github handle
    "janedoe" and email "jane@example.com" (and any avatar reference), the
    output of the Bio component (either variant) contains the text
    "Jane Doe", a hyperlink to "https://github.com/janedoe" that opens in a
    new browsing context, and a hyperlink to "mailto:jane@example.com". *)
Theorem jane_doe_scenario (v : BioVariant) (fixed : JsValue) (w : World) :
  exists tree profile contact : Node,
    Bio_render v (resolved_for v Sample.jane fixed) w = (Normal tree, w) /\
    In "Jane Doe" (texts tree) /\
    (In profile (anchors tree) /\
     prop "href" profile = Some (JStr "https://github.com/janedoe") /\
     prop "target" profile = Some (JStr "_blank")) /\
    (In contact (anchors tree) /\
     prop "href" contact = Some (JStr "mailto:jane@example.com")).
Proof.
  destruct v; do 3 eexists;
    (split; [reflexivity | split; [cbn; tauto | split]]);
    [ split; [left; reflexivity | split; reflexivity]
    | split; [right; left; reflexivity | reflexivity]
    | split; [left; reflexivity | split; reflexivity]
    | split; [right; left; reflexivity | reflexivity] ].
Qed.

(** C5. Whatever characters the [social.github] handle is made of, hyphens
    and the characters a URL reserves included, it is the path segment of
    the rendered profile link as it stands: what follows
    ["https://github.com/"] in the href is the handle itself, and the href
    is exactly as long as the prefix and the handle together, so nothing
    was escaped or percent-encoded. *)
Theorem handle_passes_verbatim (v : BioVariant) (sm : SiteMetadata)
    (fixed : JsValue) (w : World) :
  exists (tree profile contact : Node) (href : string),
    Bio_render v (resolved_for v sm fixed) w = (Normal tree, w) /\
    anchors tree = [profile; contact] /\
    prop "href" profile = Some (JStr href) /\
    strip_prefix "https://github.com/" href = Some (github (social sm)) /\
    String.length href =
      (String.length "https://github.com/" + String.length (github (social sm)))%nat.
Proof.
  destruct (render_links v sm fixed w) as [tree [Hrun Hlinks]].
  exists tree. do 3 eexists.
  split; [exact Hrun | split; [exact Hlinks | split; [reflexivity | split]]].
  - apply strip_prefix_append.
  - reflexivity.
Qed.

(** C6, as the code has it. For every resolved data object the output of
    the Bio component holds exactly one image element and exactly one text
    block, and the block holds exactly two hyperlinks, the only ones of the
    tree.  In the plain variant the image's width and height are both
    [rhythm 3].  In the gatsby-image variant the image is not sized by the
    scale: it is given the query's fixed rendition and a minimum width and
    height of 100, has no width or height of its own, and takes only its
    right margin from [rhythm]. *)
Theorem one_image_one_block_two_links (v : BioVariant) (sm : SiteMetadata)
    (fixed : JsValue) (w : World) :
  exists tree img block profile contact : Node,
    Bio_render v (resolved_for v sm fixed) w = (Normal tree, w) /\
    images tree = [img] /\
    paragraphs tree = [block] /\
    anchors block = [profile; contact] /\
    anchors tree = [profile; contact] /\
    match v with
    | Plain =>
        style_entry "width" img = Some (JStr (rhythm 3)) /\
        style_entry "height" img = Some (JStr (rhythm 3))
    | Gatsby =>
        prop "fixed" img = Some fixed /\
        style_entry "minWidth" img = Some (JNum 100) /\
        style_entry "minHeight" img = Some (JNum 100) /\
        style_entry "width" img = None /\
        style_entry "height" img = None /\
        style_entry "marginRight" img = Some (JStr (rhythm (1 / 2)))
    end.
Proof.
  destruct v; do 5 eexists; repeat split; reflexivity.
Qed.

(** The site selection alone is what the plain component reads. *)
Lemma PlainBio_render_returns (data : JsValue) (w : World) :
  provides data site_selection = true ->
  exists tree : Node,
    PlainBio.render rhythm number_to_string profilePic data w = (Normal tree, w).
Proof.
  intros H.
  apply provides_site_selection in H
    as (fields & site & meta & author & social & github & email & -> &
        Hsite & Hmeta & Hauthor & Hsocial & [Hgithub Sgithub] & [Hemail Semail]).
  destruct (ToString_scalar number_to_string github Sgithub) as [github_text Tgithub].
  destruct (ToString_scalar number_to_string email Semail) as [email_text Temail].
  unfold PlainBio.render.
  do 5 read_own. convert Tgithub. read_own. convert Temail.
  eexists. reflexivity.
Qed.

(** The gatsby-image component reads the avatar selection as well. *)
Lemma GatsbyBio_render_returns (data : JsValue) (w : World) :
  honours GatsbyBio.bioQuery data = true ->
  exists tree : Node,
    GatsbyBio.render rhythm number_to_string data w = (Normal tree, w).
Proof.
  intros H. destruct queries_share_site_selection as [Hq _].
  rewrite Hq in H. unfold honours in H. cbn [forallb] in H.
  rewrite andb_true_r in H. apply andb_prop in H as [Havatar H].
  apply provides_site_selection in H
    as (fields & site & meta & author & social & github & email & -> &
        Hsite & Hmeta & Hauthor & Hsocial & [Hgithub Sgithub] & [Hemail Semail]).
  apply provides_avatar_selection in Havatar
    as (fields' & avatar & sharp & fixed & Heq & Havatar & Hsharp & Hfixed).
  injection Heq as <-.
  destruct (ToString_scalar number_to_string github Sgithub) as [github_text Tgithub].
  destruct (ToString_scalar number_to_string email Semail) as [email_text Temail].
  unfold GatsbyBio.render.
  do 8 read_own. convert Tgithub. read_own. convert Temail.
  eexists. reflexivity.
Qed.

(** Whatever a render returns is the biography block: there is no other
    markup it could fall back to. *)
Lemma render_returns_the_block (v : BioVariant) (data : JsValue)
    (w w' : World) (tree : Node) :
  Bio_render v data w = (Normal tree, w') ->
  length (images tree) = 1%nat /\
  length (paragraphs tree) = 1%nat /\
  length (anchors tree) = 2%nat.
Proof.
  intros H. destruct v; cbn [render_of] in H;
    [unfold GatsbyBio.render in H | unfold PlainBio.render in H];
    unwind H; repeat split.
Qed.

(** C8, as the code has it. The render validates nothing and has no
    fallback.  When the data provides every field that the component's own
    query selects (the site metadata's author and social github and email
    and, for the gatsby-image variant, the avatar's fixed rendition as
    well), every read succeeds and the render returns.  Whatever it returns
    is the biography block, and on data with no [site], or on no data at
    all, it throws a TypeError instead of rendering something else. *)
Theorem render_relies_on_query_contract (v : BioVariant) (data : JsValue)
    (w : World) :
  (honours (bioQuery_of v) data = true ->
   exists tree : Node, Bio_render v data w = (Normal tree, w)) /\
  (forall (tree : Node) (w' : World),
     Bio_render v data w = (Normal tree, w') ->
     length (images tree) = 1%nat /\
     length (paragraphs tree) = 1%nat /\
     length (anchors tree) = 2%nat) /\
  (nullish data = true ->
   Bio_render v data w = (Throw (TypeError "site"), w)) /\
  (forall fields : list (string * JsValue),
     data = JObj fields -> assoc "site" fields = None ->
     Bio_render v data w = (Throw (TypeError "siteMetadata"), w)).
Proof.
  split; [|split; [|split]].
  - intros H. destruct v.
    + now apply GatsbyBio_render_returns.
    + apply PlainBio_render_returns.
      unfold honours in H. cbn [bioQuery_of PlainBio.bioQuery forallb] in H.
      now rewrite andb_true_r in H.
  - intros tree w'. apply render_returns_the_block.
  - destruct data; try discriminate; destruct v; reflexivity.
  - intros fields -> Hsite.
    destruct v; cbn [render_of];
      [unfold GatsbyBio.render | unfold PlainBio.render];
      cbn -[ToString]; rewrite Hsite; reflexivity.
Qed.

(** C9. For every resolved site metadata the two variants of the Bio
    component render the same two hyperlinks: the same profile link, with
    target [_blank] and rel ["noopener noreferrer"], and the same contact
    link, which has neither attribute. *)
Theorem variants_render_same_links (sm : SiteMetadata) (fixed : JsValue)
    (w : World) :
  exists gatsby_tree plain_tree profile contact : Node,
    GatsbyBio.render rhythm number_to_string (resolved sm fixed) w
      = (Normal gatsby_tree, w) /\
    PlainBio.render rhythm number_to_string profilePic (resolved_site sm) w
      = (Normal plain_tree, w) /\
    anchors gatsby_tree = [profile; contact] /\
    anchors plain_tree = [profile; contact] /\
    (prop "href" profile = Some (JStr ("https://github.com/" ++ github (social sm))) /\
     prop "target" profile = Some (JStr "_blank") /\
     prop "rel" profile = Some (JStr "noopener noreferrer")) /\
    (prop "href" contact = Some (JStr ("mailto:" ++ email (social sm))) /\
     prop "target" contact = None /\
     prop "rel" contact = None).
Proof.
  do 4 eexists. repeat split; reflexivity.
Qed.

(** C10. In every render of either variant of the Bio component the
    avatar, the one image element of the output, has the author of the
    resolved site metadata as its alt text. *)
Theorem avatar_alt_is_author (v : BioVariant) (sm : SiteMetadata)
    (fixed : JsValue) (w : World) :
  exists tree img : Node,
    Bio_render v (resolved_for v sm fixed) w = (Normal tree, w) /\
    images tree = [img] /\
    prop "alt" img = Some (JStr (author sm)).
Proof.
  destruct v; do 2 eexists; repeat split; reflexivity.
Qed.

End BioProperties.

(* ------------------------------------------------------------------ *)
(** ** The biography component on concrete inputs *)

Lemma profile_link_target_witness :
  github (social Sample.jane) <> "" /\
  exists tree profile contact : Node,
    render_of Sample.rhythm Sample.number_to_string Sample.profilePic Gatsby
      (resolved_for Gatsby Sample.jane Sample.fixed50) Sample.idle
      = (Normal tree, Sample.idle) /\
    anchors tree = [profile; contact] /\
    prop "href" profile = Some (JStr "https://github.com/janedoe") /\
    prop "target" profile = Some (JStr "_blank") /\
    option_map tokens (prop "rel" profile) = Some ["noopener"; "noreferrer"].
Proof.
  split; [discriminate |].
  apply (profile_link_target Sample.rhythm Sample.number_to_string
           Sample.profilePic Gatsby Sample.jane Sample.fixed50 Sample.idle).
  discriminate.
Defined.

Lemma contact_link_target_witness :
  email (social Sample.jane) <> "" /\
  exists tree profile contact : Node,
    render_of Sample.rhythm Sample.number_to_string Sample.profilePic Plain
      (resolved_for Plain Sample.jane Sample.fixed50) Sample.busy
      = (Normal tree, Sample.busy) /\
    anchors tree = [profile; contact] /\
    prop "href" contact = Some (JStr "mailto:jane@example.com").
Proof.
  split; [discriminate |].
  apply (contact_link_target Sample.rhythm Sample.number_to_string
           Sample.profilePic Plain Sample.jane Sample.fixed50 Sample.busy).
  discriminate.
Defined.

(** A hyphen in the handle stays a hyphen. *)
Example hyphenated_handle :
  exists tree profile contact : Node,
    GatsbyBio.render Sample.rhythm Sample.number_to_string
      (resolved Sample.hyphenated Sample.fixed50) Sample.idle
      = (Normal tree, Sample.idle) /\
    anchors tree = [profile; contact] /\
    prop "href" profile = Some (JStr "https://github.com/jane-doe").
Proof. do 3 eexists. repeat split; reflexivity. Qed.

(** So do a slash, a question mark, a hash, a percent sign, an ampersand
    and a space: the href is no valid URL for it, and nothing rewrote it. *)
Example reserved_handle :
  exists tree profile contact : Node,
    PlainBio.render Sample.rhythm Sample.number_to_string Sample.profilePic
      (resolved_site Sample.reserved) Sample.idle
      = (Normal tree, Sample.idle) /\
    anchors tree = [profile; contact] /\
    prop "href" profile = Some (JStr "https://github.com/a/b?c#d%20&e=f g").
Proof. do 3 eexists. repeat split; reflexivity. Qed.

(** C6 as stated fails on src/components/bio.js: the one image of its
    output has no width or height from the scale. *)
Lemma gatsby_image_not_sized_by_rhythm :
  exists tree img : Node,
    GatsbyBio.render Sample.rhythm Sample.number_to_string
      (resolved Sample.jane Sample.fixed50) Sample.idle
      = (Normal tree, Sample.idle) /\
    images tree = [img] /\
    style_entry "width" img = None /\
    style_entry "minWidth" img = Some (JNum 100) /\
    (forall scale : Q -> string, ~ sized_by scale img).
Proof.
  do 2 eexists. repeat split; try reflexivity.
  intros scale (lines_w & lines_h & Hwidth & _). discriminate Hwidth.
Qed.

(** The plain variant's image is sized by the scale. *)
Example plain_image_sized_by_rhythm :
  exists tree img : Node,
    PlainBio.render Sample.rhythm Sample.number_to_string Sample.profilePic
      (resolved_site Sample.jane) Sample.idle
      = (Normal tree, Sample.idle) /\
    images tree = [img] /\
    sized_by Sample.rhythm img /\
    style_entry "width" img = Some (JStr "5.25rem").
Proof.
  do 2 eexists. repeat split; try reflexivity.
  exists 3, 3. split; reflexivity.
Qed.

(** C8 as stated fails on src/components/bio.js: a result with the author
    and the social handles, and a null avatar (no file matched), makes the
    render throw on [data.avatar.childImageSharp]. *)
Lemma null_avatar_render_throws :
  provides (resolved_without_avatar Sample.jane) site_selection = true /\
  GatsbyBio.render Sample.rhythm Sample.number_to_string
    (resolved_without_avatar Sample.jane) Sample.idle
    = (Throw (TypeError "childImageSharp"), Sample.idle) /\
  exists tree : Node,
    PlainBio.render Sample.rhythm Sample.number_to_string Sample.profilePic
      (resolved_without_avatar Sample.jane) Sample.idle
      = (Normal tree, Sample.idle).
Proof. repeat split. eexists. reflexivity. Qed.

Lemma render_relies_on_query_contract_witness :
  honours (bioQuery_of Gatsby) (resolved Sample.jane Sample.fixed50) = true /\
  exists tree : Node,
    render_of Sample.rhythm Sample.number_to_string Sample.profilePic Gatsby
      (resolved Sample.jane Sample.fixed50) Sample.idle
      = (Normal tree, Sample.idle).
Proof.
  split; [reflexivity |].
  apply (proj1 (render_relies_on_query_contract Sample.rhythm
                  Sample.number_to_string Sample.profilePic Gatsby
                  (resolved Sample.jane Sample.fixed50) Sample.idle)).
  reflexivity.
Defined.

(** A handle that is an object with a [toString] entry of its own cannot be
    put into the template: the query contract, which asks for a scalar,
    rules it out. *)
Example object_handle_throws :
  PlainBio.render Sample.rhythm Sample.number_to_string Sample.profilePic
    (JObj [("site",
            JObj [("siteMetadata",
                   JObj [("author", JStr "Jane Doe");
                         ("social",
                          JObj [("github", JObj [("toString", JStr "janedoe")]);
                                ("email", JStr "jane@example.com")])])])])
    Sample.idle
  = (Throw (TypeError "toString"), Sample.idle).
Proof. reflexivity. Qed.

(* ------------------------------------------------------------------ *)
(** ** The content files *)

(** C7 as stated fails on every post: none has a quoted title or
    description. *)
Lemma no_post_has_the_spec_format :
  existsb (Content.begins_with Content.spec_format) Content.content_files = false /\
  option_map Content.title (Content.front_matter (Content.front Content.react_native_dark_mode))
    = Some "React-Native Dark Mode" /\
  Content.quoted "React-Native Dark Mode" = false.
Proof. repeat split. Qed.

(** One post gives its day with a single digit. *)
Example single_digit_day :
  option_map Content.date (Content.front_matter (Content.front Content.testing_and_ci_cd))
    = Some (dquote ++ "2019-09-6" ++ dquote) /\
  Content.iso_date "2019-09-6" = false /\
  Content.iso_date "2019-09-26" = true.
Proof. repeat split. Qed.

(** C7, as the files have it. Every content file begins with a front-matter
    block: a [---] line, a title, a date and a description in that order,
    and a [---] line.  The title and the description are plain, unquoted
    scalars and the date is a double-quoted string; in every file but
    testing-and-ci-cd/index.md the date has the exact form YYYY-MM-DD. *)
Theorem front_matter_of_every_post (f : Content.ContentFile) :
  In f Content.content_files ->
  exists fm : Content.FrontMatter,
    Content.front_matter (Content.front f) = Some fm /\
    Content.plain (Content.title fm) = true /\
    Content.quoted (Content.title fm) = false /\
    Content.quoted (Content.date fm) = true /\
    Content.plain (Content.description fm) = true /\
    Content.quoted (Content.description fm) = false /\
    (Content.path f <> "content/blog/testing-and-ci-cd/index.md" ->
     Content.iso_date (Content.unquote (Content.date fm)) = true).
Proof.
  intros Hin. cbn [Content.content_files In] in Hin.
  repeat (destruct Hin as [<- | Hin]); [.. | contradiction Hin];
    (eexists; split; [vm_compute; reflexivity |]);
    repeat (split; [vm_compute; reflexivity |]).
  all: try (intros _; vm_compute; reflexivity).
  intros Hpath. now elim Hpath.
Qed.

Lemma front_matter_of_every_post_witness :
  In Content.javascript_basics Content.content_files /\
  exists fm : Content.FrontMatter,
    Content.front_matter (Content.front Content.javascript_basics) = Some fm /\
    Content.plain (Content.title fm) = true /\
    Content.quoted (Content.title fm) = false /\
    Content.quoted (Content.date fm) = true /\
    Content.plain (Content.description fm) = true /\
    Content.quoted (Content.description fm) = false /\
    (Content.path Content.javascript_basics <> "content/blog/testing-and-ci-cd/index.md" ->
     Content.iso_date (Content.unquote (Content.date fm)) = true).
Proof.
  split; [left; reflexivity |].
  apply (front_matter_of_every_post Content.javascript_basics).
  left; reflexivity.
Defined.

(* ------------------------------------------------------------------ *)
(** ** The biography component on any query result *)

Lemma bind_Get {A : Type} (base : JsValue) (key : string)
    (f : JsValue -> Render A) (w : World) :
  bind (Get base key) f w =
    if nullish base then (Throw (TypeError key), w) else f (field key base) w.
Proof.
  destruct base as [| | | | |fields]; cbn; try reflexivity.
  destruct (assoc key fields); reflexivity.
Qed.

Lemma bind_ToString {A : Type} (nts : Q -> string) (v : JsValue)
    (f : string -> Render A) (w : World) :
  bind (ToString nts v) f w =
    if stringifiable v then f (text_of nts v) w
    else (Throw (TypeError "toString"), w).
Proof.
  destruct v as [| |[|]| | |fields]; cbn; try reflexivity.
  destruct (has_own "toString" fields); reflexivity.
Qed.

Lemma nullish_field (key : string) (v : JsValue) :
  nullish v = true -> field key v = JUndefined.
Proof. destruct v; cbn; intros H; try discriminate; reflexivity. Qed.

(** Runs a render step by step: each read and each conversion becomes a
    test of its base, and the tests are then decided one by one. *)
Ltac run_render :=
  unfold GatsbyBio.render, PlainBio.render;
  repeat (first [rewrite bind_Get | rewrite bind_ToString]; cbv beta);
  unfold ret.

Ltac decide_reads :=
  repeat match goal with
         | |- context [if ?b then _ else _] => destruct b eqn:?
         end.

Section BioOnAnyData.

Variable rhythm : Q -> string.
Variable number_to_string : Q -> string.
Variable profilePic : string.

Local Abbreviation Bio_render := (render_of rhythm number_to_string profilePic).

(** How a render ends on any data at all: when every read succeeds, with
    the biography block built from what was read; otherwise with a
    TypeError. *)
Lemma render_outcome (v : BioVariant) (data : JsValue) (w : World) :
  (reads_succeed v data = true /\
   exists tree img : Node,
     Bio_render v data w = (Normal tree, w) /\
     anchors tree =
       [ profile_link (text_of number_to_string (field "github" (social_of data)));
         contact_link (text_of number_to_string (field "email" (social_of data))) ] /\
     images tree = [img] /\
     prop "alt" img = Some (field "author" (metadata_of data)) /\
     In (Elem (Host "strong") [] [Expr (field "author" (metadata_of data))])
        (select (is_host "strong") tree)) \/
  (reads_succeed v data = false /\
   exists what : string, Bio_render v data w = (Throw (TypeError what), w)).
Proof.
  destruct (Bio_render v data w) as [r w'] eqn:Hrun. revert Hrun.
  unfold reads_succeed, site_reads_succeed, destructuring_succeeds,
    avatar_reads_succeed, handles_convert, sharp_of, social_of, metadata_of.
  destruct v; cbn [render_of]; run_render; decide_reads;
    intros Hrun; injection Hrun as <- <-;
    repeat (cbn [negb andb]; rewrite ?andb_false_r);
    try (right; split; [reflexivity | eexists; reflexivity]).
  all: left; split; [reflexivity |];
    do 2 eexists; repeat split; try reflexivity; cbn; tauto.
Qed.

Lemma gatsby_reads_include_plain_reads (data : JsValue) :
  reads_succeed Gatsby data = true -> reads_succeed Plain data = true.
Proof.
  unfold reads_succeed. intros H.
  apply andb_prop in H as [H Hconvert]. apply andb_prop in H as [Hsite _].
  now rewrite Hsite, Hconvert.
Qed.

(** X1. A render returns exactly when every read it makes has something to
    read from and both handles can be printed, and it throws a TypeError
    exactly when one of them fails: [data], [data.site], the site metadata
    and [social] are neither [undefined] nor [null]; for the gatsby-image
    variant neither are [data.avatar] and its [childImageSharp]; and
    neither handle is an object with a [toString] entry of its own. *)
Theorem render_returns_iff_reads_succeed (v : BioVariant) (data : JsValue)
    (w : World) :
  ((exists tree : Node, Bio_render v data w = (Normal tree, w))
   <-> reads_succeed v data = true) /\
  ((exists what : string, Bio_render v data w = (Throw (TypeError what), w))
   <-> reads_succeed v data = false).
Proof.
  destruct (render_outcome v data w)
    as [[Hreads (tree & img & Hrun & _)] | [Hreads (what & Hrun)]];
    rewrite Hreads, Hrun; (split; split).
  - reflexivity.
  - intros _. now exists tree.
  - intros [what H]. discriminate H.
  - discriminate.
  - intros [tree H]. discriminate H.
  - discriminate.
  - reflexivity.
  - intros _. now exists what.
Qed.

(** X2. Whatever the data, a render that returns has exactly two
    hyperlinks.  The first points to ["https://github.com/"] followed by
    what the template literal prints for [social.github], opens in a new
    browsing context and carries rel [noopener] and [noreferrer]; the
    second points to ["mailto:"] followed by what is printed for
    [social.email] and has no target. *)
Theorem every_render_has_both_links (v : BioVariant) (data : JsValue)
    (w w' : World) (tree : Node) :
  Bio_render v data w = (Normal tree, w') ->
  exists profile contact : Node,
    anchors tree = [profile; contact] /\
    prop "href" profile
      = Some (JStr ("https://github.com/"
                    ++ text_of number_to_string (field "github" (social_of data)))) /\
    prop "target" profile = Some (JStr "_blank") /\
    option_map tokens (prop "rel" profile) = Some ["noopener"; "noreferrer"] /\
    prop "href" contact
      = Some (JStr ("mailto:"
                    ++ text_of number_to_string (field "email" (social_of data)))) /\
    prop "target" contact = None.
Proof.
  intros H.
  destruct (render_outcome v data w)
    as [[_ (tree' & img & Hrun & Hlinks & _)] | [_ (what & Hrun)]];
    rewrite Hrun in H; [injection H as <- _ | discriminate H].
  do 2 eexists. split; [exact Hlinks | repeat split].
Qed.

(** X3. A [social] object without a [github] entry is no error: when the
    other reads succeed the render returns, and its profile link points to
    "https://github.com/undefined". *)
Theorem absent_github_links_to_undefined (v : BioVariant) (data : JsValue)
    (w : World) (entries : list (string * JsValue)) :
  site_reads_succeed data = true ->
  (v = Gatsby -> avatar_reads_succeed data = true) ->
  stringifiable (field "email" (social_of data)) = true ->
  social_of data = JObj entries ->
  assoc "github" entries = None ->
  exists tree profile contact : Node,
    Bio_render v data w = (Normal tree, w) /\
    anchors tree = [profile; contact] /\
    prop "href" profile = Some (JStr "https://github.com/undefined").
Proof.
  intros Hsite Havatar Hemail Hsocial Hgithub.
  assert (Hfield : field "github" (social_of data) = JUndefined)
    by (rewrite Hsocial; cbn; now rewrite Hgithub).
  assert (Hreads : reads_succeed v data = true).
  { unfold reads_succeed, handles_convert.
    rewrite Hsite, Hemail, Hfield. destruct v; [|reflexivity].
    now rewrite Havatar. }
  destruct (render_outcome v data w)
    as [[_ (tree & img & Hrun & Hlinks & _)] | [Hfails _]];
    [| rewrite Hreads in Hfails; discriminate Hfails].
  exists tree. do 2 eexists.
  split; [exact Hrun | split; [exact Hlinks |]].
  cbn. now rewrite Hfield.
Qed.


(** X5. A render looks at nothing of the data but [site] and, in the
    gatsby-image variant, [avatar]: on two results that are both or neither
    [undefined] or [null] and that agree on these entries it ends the same
    way, whatever else they hold and in whatever order. *)
Theorem render_reads_only_site_and_avatar (v : BioVariant)
    (data1 data2 : JsValue) (w : World) :
  nullish data1 = nullish data2 ->
  field "site" data1 = field "site" data2 ->
  (v = Gatsby -> field "avatar" data1 = field "avatar" data2) ->
  Bio_render v data1 w = Bio_render v data2 w.
Proof.
  intros Hnull Hsite Havatar.
  destruct v; cbn [render_of]; run_render; rewrite Hnull, Hsite;
    [rewrite (Havatar eq_refl) |]; reflexivity.
Qed.

(** X6. With the site metadata readable and the avatar not, the
    gatsby-image render throws: on [childImageSharp] when [data.avatar] is
    [undefined] or [null], on [fixed] when its [childImageSharp] is.  The
    plain render returns on the same data whenever the handles can be
    printed. *)
Theorem gatsby_render_needs_avatar (data : JsValue) (w : World) :
  site_reads_succeed data = true ->
  avatar_reads_succeed data = false ->
  GatsbyBio.render rhythm number_to_string data w
    = (Throw (TypeError (if nullish (field "avatar" data)
                         then "childImageSharp" else "fixed")), w) /\
  (handles_convert data = true ->
   exists tree : Node,
     PlainBio.render rhythm number_to_string profilePic data w = (Normal tree, w)).
Proof.
  intros Hsite Havatar. split.
  - revert Hsite Havatar.
    unfold site_reads_succeed, destructuring_succeeds, avatar_reads_succeed,
      sharp_of, social_of, metadata_of.
    run_render. decide_reads; cbn [negb andb]; intros Hsite Havatar;
      try discriminate Hsite; try discriminate Havatar; reflexivity.
  - intros Hconvert.
    destruct (render_outcome Plain data w)
      as [[_ (tree & img & Hrun & _)] | [Hfails _]]; [now exists tree |].
    unfold reads_succeed in Hfails.
    rewrite Hsite, Hconvert in Hfails. discriminate Hfails.
Qed.

(** X7. Where the gatsby-image render returns, the plain render returns
    too, on the same data, with the same hyperlinks. *)
Theorem plain_returns_where_gatsby_does (data : JsValue) (w w' : World)
    (tree : Node) :
  GatsbyBio.render rhythm number_to_string data w = (Normal tree, w') ->
  exists plain_tree : Node,
    PlainBio.render rhythm number_to_string profilePic data w
      = (Normal plain_tree, w) /\
    anchors plain_tree = anchors tree.
Proof.
  intros H.
  destruct (render_outcome Gatsby data w)
    as [[Hreads (tree' & img & Hrun & Hlinks & _)] | [_ (what & Hrun)]];
    cbn [render_of] in Hrun; rewrite Hrun in H;
    [injection H as <- _ | discriminate H].
  apply gatsby_reads_include_plain_reads in Hreads.
  destruct (render_outcome Plain data w)
    as [[_ (plain_tree & img' & Hplain & Hplain_links & _)] | [Hfails _]];
    [| rewrite Hreads in Hfails; discriminate Hfails].
  exists plain_tree. split; [exact Hplain | now rewrite Hlinks, Hplain_links].
Qed.

(** X8. The rendered links tell the handles apart: two resolved site
    metadata whose renders have the same hyperlinks have the same github
    handle and the same email. *)
Theorem links_determine_handles (v : BioVariant) (sm1 sm2 : SiteMetadata)
    (fixed1 fixed2 : JsValue) (w w1 w2 : World) (tree1 tree2 : Node) :
  Bio_render v (resolved_for v sm1 fixed1) w = (Normal tree1, w1) ->
  Bio_render v (resolved_for v sm2 fixed2) w = (Normal tree2, w2) ->
  anchors tree1 = anchors tree2 ->
  social sm1 = social sm2.
Proof.
  intros H1 H2 Hsame.
  destruct (render_links rhythm number_to_string profilePic v sm1 fixed1 w)
    as [t1 [Hrun1 Hlinks1]].
  destruct (render_links rhythm number_to_string profilePic v sm2 fixed2 w)
    as [t2 [Hrun2 Hlinks2]].
  rewrite Hrun1 in H1. injection H1 as <- _.
  rewrite Hrun2 in H2. injection H2 as <- _.
  rewrite Hlinks1, Hlinks2 in Hsame.
  injection Hsame as Hgithub Hemail.
  destruct sm1 as [a1 [g1 e1]], sm2 as [a2 [g2 e2]]; cbn in *.
  now subst.
Qed.

(** X9. The destructuring of [data.site.siteMetadata] comes first: when
    it fails, both variants throw the same error, on [site],
    [siteMetadata] or [author], and the gatsby-image variant never gets to
    look at the avatar. *)
Theorem variants_fail_alike_on_destructuring (data : JsValue) (w : World) :
  destructuring_succeeds data = false ->
  GatsbyBio.render rhythm number_to_string data w
    = PlainBio.render rhythm number_to_string profilePic data w /\
  exists what : string,
    PlainBio.render rhythm number_to_string profilePic data w
      = (Throw (TypeError what), w) /\
    In what ["site"; "siteMetadata"; "author"].
Proof.
  unfold destructuring_succeeds, metadata_of.
  run_render. decide_reads; cbn [negb andb]; intros Hfails;
    try discriminate Hfails;
    (split; [reflexivity | eexists; split; [reflexivity | cbn; tauto]]).
Qed.

(** X10. [social] is read from only inside the JSX, after the avatar: with
    the destructuring done and [social] undefined or null, the plain render
    throws on [github], and so does the gatsby-image render when the avatar
    can be read; when it cannot, the avatar's error is the one thrown. *)
Theorem missing_social_fails_after_avatar (data : JsValue) (w : World) :
  destructuring_succeeds data = true ->
  nullish (social_of data) = true ->
  PlainBio.render rhythm number_to_string profilePic data w
    = (Throw (TypeError "github"), w) /\
  GatsbyBio.render rhythm number_to_string data w
    = (Throw (TypeError (if nullish (field "avatar" data) then "childImageSharp"
                         else if nullish (sharp_of data) then "fixed"
                         else "github")), w).
Proof.
  unfold destructuring_succeeds, sharp_of, social_of, metadata_of.
  run_render. decide_reads; cbn [negb andb]; intros Hdone Hsocial;
    try discriminate Hdone; try discriminate Hsocial; split; reflexivity.
Qed.

End BioOnAnyData.

(* ------------------------------------------------------------------ *)
(** ** Any query result: concrete inputs *)

Lemma every_render_has_both_links_witness :
  exists tree profile contact : Node,
    PlainBio.render Sample.rhythm Sample.number_to_string Sample.profilePic
      without_github Sample.idle = (Normal tree, Sample.idle) /\
    anchors tree = [profile; contact] /\
    prop "href" profile = Some (JStr "https://github.com/undefined") /\
    prop "target" profile = Some (JStr "_blank") /\
    prop "href" contact = Some (JStr "mailto:jane@example.com").
Proof.
  assert (Hrun : exists tree : Node,
             render_of Sample.rhythm Sample.number_to_string Sample.profilePic
               Plain without_github Sample.idle = (Normal tree, Sample.idle))
    by (eexists; reflexivity).
  destruct Hrun as [tree Hrun].
  destruct (every_render_has_both_links Sample.rhythm Sample.number_to_string
              Sample.profilePic Plain without_github Sample.idle Sample.idle
              tree Hrun)
    as (profile & contact & Hlinks & Hhref & Htarget & _ & Hmail & _).
  exists tree, profile, contact. repeat split; assumption.
Defined.

Lemma absent_github_links_to_undefined_witness :
  social_of without_github = JObj [("email", JStr "jane@example.com")] /\
  exists tree profile contact : Node,
    render_of Sample.rhythm Sample.number_to_string Sample.profilePic Plain
      without_github Sample.busy = (Normal tree, Sample.busy) /\
    anchors tree = [profile; contact] /\
    prop "href" profile = Some (JStr "https://github.com/undefined").
Proof.
  split; [reflexivity |].
  apply (absent_github_links_to_undefined Sample.rhythm Sample.number_to_string
           Sample.profilePic Plain without_github Sample.busy
           [("email", JStr "jane@example.com")]);
    try reflexivity.
  intros H. discriminate H.
Defined.


Lemma render_reads_only_site_and_avatar_witness :
  render_of Sample.rhythm Sample.number_to_string Sample.profilePic Plain
    (resolved Sample.jane Sample.fixed50) Sample.idle
  = render_of Sample.rhythm Sample.number_to_string Sample.profilePic Plain
      (resolved_site Sample.jane) Sample.idle.
Proof.
  apply (render_reads_only_site_and_avatar Sample.rhythm Sample.number_to_string
           Sample.profilePic Plain (resolved Sample.jane Sample.fixed50)
           (resolved_site Sample.jane) Sample.idle);
    try reflexivity.
  intros H. discriminate H.
Defined.

Lemma gatsby_render_needs_avatar_witness :
  GatsbyBio.render Sample.rhythm Sample.number_to_string
    (resolved_without_avatar Sample.jane) Sample.idle
    = (Throw (TypeError "childImageSharp"), Sample.idle) /\
  (handles_convert (resolved_without_avatar Sample.jane) = true ->
   exists tree : Node,
     PlainBio.render Sample.rhythm Sample.number_to_string Sample.profilePic
       (resolved_without_avatar Sample.jane) Sample.idle
       = (Normal tree, Sample.idle)).
Proof.
  apply (gatsby_render_needs_avatar Sample.rhythm Sample.number_to_string
           Sample.profilePic (resolved_without_avatar Sample.jane) Sample.idle);
    reflexivity.
Defined.

Lemma plain_returns_where_gatsby_does_witness :
  exists tree plain_tree : Node,
    GatsbyBio.render Sample.rhythm Sample.number_to_string
      (resolved Sample.jane Sample.fixed50) Sample.idle
      = (Normal tree, Sample.idle) /\
    PlainBio.render Sample.rhythm Sample.number_to_string Sample.profilePic
      (resolved Sample.jane Sample.fixed50) Sample.idle
      = (Normal plain_tree, Sample.idle) /\
    anchors plain_tree = anchors tree.
Proof.
  assert (Hrun : exists tree : Node,
             GatsbyBio.render Sample.rhythm Sample.number_to_string
               (resolved Sample.jane Sample.fixed50) Sample.idle
             = (Normal tree, Sample.idle))
    by (eexists; reflexivity).
  destruct Hrun as [tree Hrun].
  destruct (plain_returns_where_gatsby_does Sample.rhythm Sample.number_to_string
              Sample.profilePic (resolved Sample.jane Sample.fixed50)
              Sample.idle Sample.idle tree Hrun)
    as (plain_tree & Hplain & Hsame).
  exists tree, plain_tree. repeat split; assumption.
Defined.

Lemma links_determine_handles_witness :
  social Sample.jane = social Sample.jane.
Proof.
  assert (Hrun1 : exists tree : Node,
             render_of Sample.rhythm Sample.number_to_string Sample.profilePic
               Gatsby (resolved_for Gatsby Sample.jane Sample.fixed50) Sample.idle
             = (Normal tree, Sample.idle))
    by (eexists; reflexivity).
  assert (Hrun2 : exists tree : Node,
             render_of Sample.rhythm Sample.number_to_string Sample.profilePic
               Gatsby (resolved_for Gatsby Sample.jane JNull) Sample.idle
             = (Normal tree, Sample.idle))
    by (eexists; reflexivity).
  destruct Hrun1 as [tree1 Hrun1]. destruct Hrun2 as [tree2 Hrun2].
  apply (links_determine_handles Sample.rhythm Sample.number_to_string
           Sample.profilePic Gatsby Sample.jane Sample.jane Sample.fixed50 JNull
           Sample.idle Sample.idle Sample.idle tree1 tree2 Hrun1 Hrun2).
  cbn [render_of resolved_for] in Hrun1, Hrun2.
  injection Hrun1 as <-. injection Hrun2 as <-. reflexivity.
Defined.

Lemma variants_fail_alike_on_destructuring_witness :
  GatsbyBio.render Sample.rhythm Sample.number_to_string
    (JObj [("avatar", JNull)]) Sample.idle
    = PlainBio.render Sample.rhythm Sample.number_to_string Sample.profilePic
        (JObj [("avatar", JNull)]) Sample.idle /\
  exists what : string,
    PlainBio.render Sample.rhythm Sample.number_to_string Sample.profilePic
      (JObj [("avatar", JNull)]) Sample.idle
      = (Throw (TypeError what), Sample.idle) /\
    In what ["site"; "siteMetadata"; "author"].
Proof.
  apply (variants_fail_alike_on_destructuring Sample.rhythm
           Sample.number_to_string Sample.profilePic
           (JObj [("avatar", JNull)]) Sample.idle).
  reflexivity.
Defined.

Lemma missing_social_fails_after_avatar_witness :
  PlainBio.render Sample.rhythm Sample.number_to_string Sample.profilePic
    (JObj [("site", JObj [("siteMetadata", JObj [("author", JStr "Jane Doe")])])])
    Sample.idle
    = (Throw (TypeError "github"), Sample.idle) /\
  GatsbyBio.render Sample.rhythm Sample.number_to_string
    (JObj [("site", JObj [("siteMetadata", JObj [("author", JStr "Jane Doe")])])])
    Sample.idle
    = (Throw (TypeError "childImageSharp"), Sample.idle).
Proof.
  apply (missing_social_fails_after_avatar Sample.rhythm Sample.number_to_string
           Sample.profilePic
           (JObj [("site", JObj [("siteMetadata", JObj [("author", JStr "Jane Doe")])])])
           Sample.idle);
    reflexivity.
Defined.
